(** * djangojs.templatetags.js: template tags for Javascript/Django integration

    A shallow embedding of [djangojs/templatetags/js.py] and the
    properties of its verbatim block extractor and of its asset tag
    helpers.

    Python strings are modelled as [string]; a character is read as a code
    point below 256.  The mutable parser object is threaded explicitly: a
    function that mutates [parser.tokens] returns the parser it leaves
    behind.  A raised exception is a value of type [exn]. *)

From Stdlib Require Import ZArith Ascii String.
From stdpp Require Import base option list strings gmap.


(** ** Python strings *)

Module PyStr.

(** [unicode.isspace] on the code points below 256: TAB..CR, FS..US, SPACE,
    NEL and NBSP. *)
Definition isspace (c : ascii) : bool :=
  let n := nat_of_ascii c in
  (((9 <=? n) && (n <=? 13)) || ((28 <=? n) && (n <=? 32))
   || (n =? 133) || (n =? 160))%nat.

(** One character of [unicode.lower]: A..Z and the upper-case letters of the
    Latin-1 block move up by 32, every other code point below 256 stays. *)
Definition lower_char (c : ascii) : ascii :=
  let n := nat_of_ascii c in
  if (((65 <=? n) && (n <=? 90))
      || ((192 <=? n) && (n <=? 222) && negb (n =? 215)))%nat
  then ascii_of_nat (n + 32) else c.

(** [s.lower()] *)
Fixpoint lower (s : string) : string :=
  match s with
  | EmptyString => EmptyString
  | String c s' => String (lower_char c) (lower s')
  end.

(** The scan behind [s.split()]: the word that starts at the head of [s]
    (empty when [s] starts with white space) and the words after it. *)
Fixpoint split_scan (s : string) : string * list string :=
  match s with
  | EmptyString => (EmptyString, [])
  | String c s' =>
      let '(w, ws) := split_scan s' in
      if isspace c
      then (EmptyString, match w with EmptyString => ws | _ => w :: ws end)
      else (String c w, ws)
  end.

(** [s.split()]: the maximal runs of characters that are not white space. *)
Definition split (s : string) : list string :=
  let '(w, ws) := split_scan s in
  match w with EmptyString => ws | _ => w :: ws end.

(** The scan behind [s.split(sep)] for a one-character separator: the field
    at the head of [s] and the fields after it. *)
Fixpoint split_on_scan (sep : ascii) (s : string) : string * list string :=
  match s with
  | EmptyString => (EmptyString, [])
  | String c s' =>
      let '(w, ws) := split_on_scan sep s' in
      if Ascii.eqb c sep then (EmptyString, w :: ws) else (String c w, ws)
  end.

(** [s.split(sep)] for a one-character separator; never empty. *)
Definition split_on (sep : ascii) (s : string) : list string :=
  let '(w, ws) := split_on_scan sep s in w :: ws.

(** [sep in s] for a one-character [sep]. *)
Fixpoint contains (sep : ascii) (s : string) : bool :=
  match s with
  | EmptyString => false
  | String c s' => Ascii.eqb c sep || contains sep s'
  end.

(** [sep.join(parts)] *)
Fixpoint join (sep : string) (parts : list string) : string :=
  match parts with
  | [] => EmptyString
  | [p] => p
  | p :: ps => p +:+ sep +:+ join sep ps
  end.

(** Truth value of a string: it is not empty. *)
Definition nonempty (s : string) : bool :=
  match s with EmptyString => false | _ => true end.

End PyStr.

(** ** Python values and exceptions *)

(** The values a template hands to a tag argument: [None], a [bool], an
    [int], a string, a [tuple], a [list] and a [dict]; [PyObject] is a value
    of any other type (a [float], a [long], an instance of a class), given
    by what the tags can observe of it: its truth value and whether its
    type defines [__getitem__]. *)
#[warnings="-register-all"]
Inductive pyvalue : Type :=
  | PyNone
  | PyBool (b : bool)
  | PyInt (n : Z)
  | PyStr (s : string)
  | PyTuple (items : list pyvalue)
  | PyList (items : list pyvalue)
  | PyDict (items : list (pyvalue * pyvalue))
  | PyObject (truth subscript : bool).

(** Truth value of [value] in [if value:] and [value or default]. *)
Definition truthy (value : pyvalue) : bool :=
  match value with
  | PyNone => false
  | PyBool b => b
  | PyInt n => negb (n =? 0)%Z
  | PyStr s => PyStr.nonempty s
  | PyTuple items => match items with [] => false | _ => true end
  | PyList items => match items with [] => false | _ => true end
  | PyDict items => match items with [] => false | _ => true end
  | PyObject truth _ => truth
  end.

(** Truth value of an optional string argument whose default is [None]. *)
Definition truthy_opt (value : option string) : bool :=
  match value with
  | None => false
  | Some s => PyStr.nonempty s
  end.

Inductive exn : Type :=
  | IndexError
  | UnboundLocalError (name : string)
  | TypeError
  | ValueError
  | TemplateSyntaxError (msg : string)
  | OtherError (msg : string).

Global Instance exn_eq_dec : EqDecision exn.
Proof. solve_decision. Defined.

(** A call either returns a value or raises. *)
Inductive result (A : Type) : Type :=
  | Ok (a : A)
  | Raise (e : exn).
Arguments Ok {A} a.
Arguments Raise {A} e.

(** Sequencing: the first exception raised propagates. *)
Global Instance result_ret : MRet result := fun A a => Ok a.
Global Instance result_bind : MBind result := fun A B k r =>
  match r with
  | Ok a => k a
  | Raise e => Raise e
  end.

(** Whether [fmt % args] takes [args] as a mapping: its type defines
    [__getitem__] and is neither [tuple] nor a string type. *)
Definition mapping_args (args : pyvalue) : bool :=
  match args with
  | PyList _ | PyDict _ => true
  | PyObject _ subscript => subscript
  | _ => false
  end.

(** [fmt % args] for a format string that holds no conversion: an empty
    tuple of arguments and a mapping are accepted and give [fmt]; any other
    value is an argument that no conversion takes, and raises [TypeError]
    (not all arguments converted). *)
Definition format_no_conversion (fmt : string) (args : pyvalue)
  : result string :=
  match args with
  | PyTuple [] => Ok fmt
  | _ => if mapping_args args then Ok fmt else Raise TypeError
  end.

(** ** The template engine's tokens and parser *)

(** Modelled from the spec: the token kinds of the template engine's
    tokenizer ([template.TOKEN_TEXT], [TOKEN_VAR], [TOKEN_BLOCK]), which the
    module imports.  [TOKEN_COMMENT] is the tokenizer's remaining kind; the
    extractor has no branch for it. *)
Inductive TokenType : Type :=
  | TOKEN_TEXT
  | TOKEN_VAR
  | TOKEN_BLOCK
  | TOKEN_COMMENT.

Global Instance TokenType_eq_dec : EqDecision TokenType.
Proof. solve_decision. Defined.

Record Token : Type := mkToken {
  token_type : TokenType;
  contents : string
}.

Global Instance Token_eq_dec : EqDecision Token.
Proof. solve_decision. Defined.

Section Extractor.

(** [tag] is the type of the compile functions held by the tag registry,
    [Node] the type of the renderable nodes they build and [RenderContext]
    the type of a render context. *)
Context {tag Node RenderContext : Type}.

(** The parser object: its token list and its tag registry, both
    mutable and shared with whoever holds the parser. *)
Record Parser : Type := mkParser {
  tokens : list Token;
  tags : gmap string tag
}.

(** What a call [compile_func(parser, token)] leaves: the node it returned
    or the exception it raised, and the parser as the call left it. *)
Inductive compiled : Type :=
  | Compiled (node : Node) (parser : Parser)
  | CompileRaised (e : exn) (parser : Parser).

Definition parser_after (c : compiled) : Parser :=
  match c with
  | Compiled _ parser => parser
  | CompileRaised _ parser => parser
  end.

(** The collaborators of the extractor, all of them the template
    engine's: how a registered compile function runs, the parser's hooks
    [empty_block_tag], [invalid_block_tag] and [compile_function_error]
    (a hook returns [None] when it returns normally and [Some e] when it
    raises [e]; [compile_function_error] gives the truth value of what it
    returns), and how a node renders. *)
Record Engine : Type := mkEngine {
  call : tag -> Parser -> Token -> compiled;
  empty_block_tag : Parser -> Token -> option exn;
  invalid_block_tag : Parser -> Token -> string -> option exn;
  compile_function_error : Parser -> Token -> exn -> bool;
  render_node : Node -> RenderContext -> string
}.

(** An element of [text_and_nodes]: a string or a node. *)
Inductive Fragment : Type :=
  | Text (s : string)
  | NodeBit (node : Node).

(** The local variables of [verbatim_tags] that live across iterations of
    its loop; [None] is a local that is not bound yet. *)
Record Locals : Type := mkLocals {
  text_and_nodes : list Fragment;
  command : option string;
  compile_func : option tag;
  node : option Node
}.

Definition append (bit : Fragment) (l : Locals) : Locals :=
  mkLocals (text_and_nodes l ++ [bit]) (command l) (compile_func l) (node l).

Definition no_locals : Locals := mkLocals [] None None None.

Variable engine : Engine.

(** Lines 50-53: [command = token.contents.split()[0]], the hook on
    [IndexError]. *)
Definition bind_command (parser : Parser) (token : Token) (l : Locals)
  : result Locals :=
  match PyStr.split (contents token) with
  | word :: _ =>
      Ok (mkLocals (text_and_nodes l) (Some word) (compile_func l) (node l))
  | [] =>
      match empty_block_tag engine parser token with
      | Some e => Raise e
      | None => Ok l
      end
  end.

(** Lines 55-58: [compile_func = parser.tags[command]], the hook on
    [KeyError]. *)
Definition bind_compile_func (parser : Parser) (token : Token) (l : Locals)
  : result Locals :=
  match command l with
  | None => Raise (UnboundLocalError "command")
  | Some cmd =>
      match tags parser !! cmd with
      | Some f =>
          Ok (mkLocals (text_and_nodes l) (command l) (Some f) (node l))
      | None =>
          match invalid_block_tag engine parser token cmd with
          | Some e => Raise e
          | None => Ok l
          end
      end
  end.

(** Lines 59-63: [node = compile_func(parser, token)]; a
    [TemplateSyntaxError] is raised again unless
    [compile_function_error] returns a true value. *)
Definition bind_node (parser : Parser) (token : Token) (l : Locals)
  : result (Parser * Locals) :=
  match compile_func l with
  | None => Raise (UnboundLocalError "compile_func")
  | Some f =>
      match call engine f parser token with
      | Compiled n parser' =>
          Ok (parser',
              mkLocals (text_and_nodes l) (command l) (compile_func l)
                       (Some n))
      | CompileRaised (TemplateSyntaxError msg) parser' =>
          if compile_function_error engine parser' token
               (TemplateSyntaxError msg)
          then Ok (parser', l)
          else Raise (TemplateSyntaxError msg)
      | CompileRaised e _ => Raise e
      end
  end.

(** Line 64: [text_and_nodes.append(node)]. *)
Definition append_node (l : Locals) : result Locals :=
  match node l with
  | None => Raise (UnboundLocalError "node")
  | Some n => Ok (append (NodeBit n) l)
  end.

(** Lines 49-64: the branch of a [TOKEN_BLOCK] token. *)
Definition block_branch (parser : Parser) (token : Token) (l : Locals)
  : result (Parser * Locals) :=
  l ← bind_command parser token l;
  l ← bind_compile_func parser token l;
  '(parser, l) ← bind_node parser token l;
  l ← append_node l;
  Ok (parser, l).

(** How one iteration of the loop ends. *)
Inductive step : Type :=
  | Continue (parser : Parser) (l : Locals)
  | Break (parser : Parser) (l : Locals)
  | Abort (e : exn).

(** Lines 38-67: one iteration of [while 1]. *)
Definition loop_body (endtagname : string) (parser : Parser) (l : Locals)
  : step :=
  match tokens parser with
  | [] => Abort IndexError
  | token :: rest =>
      let parser := mkParser rest (tags parser) in
      if decide (contents token = endtagname) then Break parser l
      else
        let branch :=
          match token_type token with
          | TOKEN_VAR =>
              Ok (parser, append (Text (contents token))
                            (append (Text "{{") l))
          | TOKEN_TEXT => Ok (parser, append (Text (contents token)) l)
          | TOKEN_BLOCK => block_branch parser token l
          | TOKEN_COMMENT => Ok (parser, l)
          end in
        match branch with
        | Raise e => Abort e
        | Ok (parser, l) =>
            match token_type token with
            | TOKEN_VAR => Continue parser (append (Text "}}") l)
            | _ => Continue parser l
            end
        end
  end.

(** What a call of [verbatim_tags] leaves: the list it returns and the
    parser as it left it, or the exception it raised. *)
Inductive outcome : Type :=
  | Returns (bits : list Fragment) (parser : Parser)
  | Raises (e : exn).

(** The loop of [verbatim_tags], run for at most [fuel] iterations;
    [None] when [fuel] iterations did not end it. *)
Fixpoint verbatim_loop (fuel : nat) (endtagname : string)
    (parser : Parser) (l : Locals) : option outcome :=
  match fuel with
  | O => None
  | S fuel' =>
      match loop_body endtagname parser l with
      | Continue parser' l' => verbatim_loop fuel' endtagname parser' l'
      | Break parser' l' => Some (Returns (text_and_nodes l') parser')
      | Abort e => Some (Raises e)
      end
  end.

(** [verbatim_tags(parser, token, endtagname)]; the [token] argument is
    overwritten before it is read. *)
Definition verbatim_tags (fuel : nat) (parser : Parser)
    (endtagname : string) : option outcome :=
  verbatim_loop fuel endtagname parser no_locals.

(** The first [n] iterations of the loop when each of them goes on to the
    next: the parser and the locals the iteration after them starts
    from. *)
Fixpoint iterations (n : nat) (endtagname : string)
    (parser : Parser) (l : Locals) : option (Parser * Locals) :=
  match n with
  | O => Some (parser, l)
  | S n' =>
      match loop_body endtagname parser l with
      | Continue parser' l' => iterations n' endtagname parser' l'
      | _ => None
      end
  end.

(** [verbatim(parser, token)]: the [text_and_nodes] the [VerbatimNode] is
    built from. *)
Definition verbatim (fuel : nat) (parser : Parser) : option outcome :=
  verbatim_tags fuel parser "endverbatim".

(** [VerbatimNode.render(context)] over [self.text_and_nodes]: a string is
    added to [output] as it is, a node is rendered. *)
Definition render (bits : list Fragment) (context : RenderContext)
  : string :=
  fold_left
    (fun output bit =>
       match bit with
       | Text s => output +:+ s
       | NodeBit n => output +:+ render_node engine n context
       end)
    bits EmptyString.

End Extractor.

Arguments Parser : clear implicits.
Arguments Engine : clear implicits.
Arguments Fragment : clear implicits.
Arguments Locals : clear implicits.
Arguments compiled : clear implicits.
Arguments outcome : clear implicits.
Arguments step : clear implicits.

(** ** Asset tags *)

(** The double quote and the line feed. *)
Definition dquote : string := String "034" EmptyString.
Definition newline : string := String "010" EmptyString.

(** The settings the tags read. *)
Record Settings : Type := mkSettings {
  JQUERY_VERSION : string;
  DEBUG : bool
}.

(** [_boolean(value)] *)
Definition _boolean (value : pyvalue) : bool :=
  match value with
  | PyBool b => b
  | PyStr s => bool_decide (PyStr.lower s = "true")
  | PyInt n => negb (n =? 0)%Z
  | _ => false
  end.

Section AssetTags.

(** [staticfiles_storage.url], [djangojs.conf.settings] and
    [djangojs.JQUERY_MIGRATE_VERSION], which the module imports. *)
Variable staticfiles_url : string -> string.
Variable settings : Settings.
Variable JQUERY_MIGRATE_VERSION : string.

(** [filename, params = parts]: unpacking a list into two names. *)
Definition unpack2 (parts : list string) : result (string * string) :=
  match parts with
  | [a; b] => Ok (a, b)
  | _ => Raise ValueError
  end.

(** Lines 113-117 of [javascript]: the path handed to the resolver. *)
Definition js_file (filename : string) : result string :=
  if PyStr.contains "?" filename
     && (length (PyStr.split_on "?" filename) =? 2)%nat
  then
    '(filename, params) ← unpack2 (PyStr.split_on "?" filename);
    Ok (filename +:+ "?" +:+ params)
  else Ok filename.

(** [javascript(filename, type=None, charset=None, async=False)] *)
Definition javascript (filename : string) (type charset : option string)
    (async : pyvalue) : result string :=
  js_file ← js_file filename;
  let js_attrs := "src=" +:+ dquote +:+ staticfiles_url js_file +:+ dquote in
  js_attrs ←
    (if truthy async
     then suffix ← format_no_conversion " async" async;
          Ok (js_attrs +:+ suffix)
     else Ok js_attrs);
  let js_attrs :=
    match type with
    | Some t =>
        if PyStr.nonempty t
        then js_attrs +:+ " type=" +:+ dquote +:+ "text/" +:+ t +:+ dquote
        else js_attrs
    | None => js_attrs
    end in
  let js_attrs :=
    match charset with
    | Some c =>
        if PyStr.nonempty c
        then js_attrs +:+ " charset=" +:+ dquote +:+ c +:+ dquote
        else js_attrs
    | None => js_attrs
    end in
  Ok ("<script " +:+ js_attrs +:+ "></script>").

(** [js_lib(filename)] *)
Definition js_lib (filename : string) : result string :=
  javascript ("js/libs/" +:+ filename) None None (PyBool false).

(** [jquery_js(version=None, migrate=False)] *)
Definition jquery_js (version : option string) (migrate : pyvalue)
  : result string :=
  let version :=
    match version with
    | Some v => if PyStr.nonempty v then v else JQUERY_VERSION settings
    | None => JQUERY_VERSION settings
    end in
  let suffix := if negb (DEBUG settings) then ".min" else EmptyString in
  lib ← js_lib ("jquery-" +:+ version +:+ suffix +:+ ".js");
  let libs := [lib] in
  libs ←
    (if _boolean migrate
     then lib ← js_lib ("jquery-migrate-" +:+ JQUERY_MIGRATE_VERSION
                        +:+ suffix +:+ ".js");
          Ok (libs ++ [lib])%list
     else Ok libs);
  Ok (PyStr.join newline libs).

(** [js(filename, type='javascript')]; [type] is the value of the argument,
    [Some "javascript"] when the caller leaves it out. *)
Definition js (filename : string) (type : option string) : result string :=
  javascript filename type None (PyBool false).

(** [coffeescript(filename)] *)
Definition coffeescript (filename : string) : result string :=
  javascript filename (Some "coffeescript") None (PyBool false).

(** [coffee(filename)] *)
Definition coffee (filename : string) : result string :=
  javascript filename (Some "coffeescript") None (PyBool false).

(** [css(filename, type=None, media=None, charset=None)] *)
Definition css (filename : string) (type media charset : option string)
  : string :=
  let link_attrs :=
    "rel=" +:+ dquote +:+ "stylesheet" +:+ dquote +:+ " href=" +:+ dquote
    +:+ staticfiles_url filename +:+ dquote in
  let link_attrs :=
    match media with
    | Some m =>
        if PyStr.nonempty m
        then link_attrs +:+ " media=" +:+ dquote +:+ m +:+ dquote
        else link_attrs
    | None => link_attrs
    end in
  let link_attrs :=
    match type with
    | Some t =>
        if PyStr.nonempty t
        then link_attrs +:+ " type=" +:+ dquote +:+ "text/" +:+ t +:+ dquote
        else link_attrs
    | None => link_attrs
    end in
  let link_attrs :=
    match charset with
    | Some c =>
        if PyStr.nonempty c
        then link_attrs +:+ " charset=" +:+ dquote +:+ c +:+ dquote
        else link_attrs
    | None => link_attrs
    end in
  "<link " +:+ link_attrs +:+ ">".

(** [less(filename)] *)
Definition less (filename : string) : string :=
  css filename (Some "less") None None.

(** [stylus(filename)] *)
Definition stylus (filename : string) : string :=
  css filename (Some "stylus") None None.

(** [styl(filename)] *)
Definition styl (filename : string) : string :=
  css filename (Some "stylus") None None.

(** [sass(filename)] *)
Definition sass (filename : string) : string :=
  css filename (Some "x-sass") None None.

(** [scss(filename)] *)
Definition scss (filename : string) : string :=
  css filename (Some "x-scss") None None.

(** [django_js(context, jquery=True, i18n=True, csrf=True, init=True)]: the
    dictionary handed to the inclusion template. *)
Definition django_js {TemplateContext : Type} (context : TemplateContext)
    (jquery i18n csrf init : pyvalue) : gmap string (gmap string bool) :=
  {[ "js" :=
       <["minified" := negb (DEBUG settings)]>
         (<["jquery" := _boolean jquery]>
            (<["i18n" := _boolean i18n]>
               (<["csrf" := _boolean csrf]>
                  (<["init" := _boolean init]> ∅)))) ]}.

(** [django_js_init(context, jquery=False, i18n=True, csrf=True,
    init=True)] *)
Definition django_js_init {TemplateContext : Type} (context : TemplateContext)
    (jquery i18n csrf init : pyvalue) : gmap string (gmap string bool) :=
  {[ "js" :=
       <["jquery" := _boolean jquery]>
         (<["i18n" := _boolean i18n]>
            (<["csrf" := _boolean csrf]>
               (<["init" := _boolean init]> ∅))) ]}.

End AssetTags.


(** ** A parser with simple tags *)

(** A compile function that reads its token only: it builds the node that
    renders as [s], or rejects the token with a syntax error. *)
Inductive simple_tag : Type :=
  | Emits (s : string)
  | Rejects (msg : string).

(** Modelled from the spec: the conditions the template engine's parser
    hooks fail with: [MalformedBlock] for a block with an empty tag name,
    [UnknownTag] for a tag name that is not registered. *)
Definition MalformedBlock : exn := TemplateSyntaxError "Empty block tag".
Definition UnknownTag (command : string) : exn :=
  TemplateSyntaxError ("Invalid block tag: '" +:+ command +:+ "'").

(** A parser for the examples: its empty-block hook fails with
    [MalformedBlock], its invalid-block hook fails with [UnknownTag] and its
    error-recovery hook declares every syntax error handled or every one
    unhandled, as [handled] says; its tags are simple tags, which leave the
    parser as they found it, and a node renders as its text. *)
Definition simple_engine (handled : bool) : Engine simple_tag string unit :=
  {| call f parser token :=
       match f with
       | Emits s => Compiled s parser
       | Rejects msg => CompileRaised (TemplateSyntaxError msg) parser
       end;
     empty_block_tag parser token := Some MalformedBlock;
     invalid_block_tag parser token command := Some (UnknownTag command);
     compile_function_error parser token e := handled;
     render_node n context := n |}.

(** The registry of the examples: [csrf_token] compiles, [broken] raises a
    syntax error. *)
Definition simple_tags : gmap string simple_tag :=
  <["csrf_token" := Emits "<input>"]> (<["broken" := Rejects "bad"]> ∅).

(** Sub-tag compilers that only take tokens from the front of the stream:
    what a call leaves is a suffix of what it found. *)
Definition front_consuming {tag Node RenderContext : Type}
    (engine : Engine tag Node RenderContext) : Prop :=
  forall f parser token,
    exists consumed,
      tokens parser
      = consumed ++ tokens (parser_after (call engine f parser token)).

(** Sub-tag compilers that leave the token stream as they found it. *)
Definition stream_preserving {tag Node RenderContext : Type}
    (engine : Engine tag Node RenderContext) : Prop :=
  forall f parser token,
    tokens (parser_after (call engine f parser token)) = tokens parser.

(** Sub-tag compilers that leave the tag registry as they found it. *)
Definition registry_preserving {tag Node RenderContext : Type}
    (engine : Engine tag Node RenderContext) : Prop :=
  forall f parser token,
    tags (parser_after (call engine f parser token)) = tags parser.

(** The strings that lines 42-47 and 66-67 add to [text_and_nodes] for a
    token that is not a block. *)
Definition literal_bits {Node : Type} (token : Token) : list (Fragment Node) :=
  match token_type token with
  | TOKEN_VAR => [Text "{{"; Text (contents token); Text "}}"]
  | TOKEN_TEXT => [Text (contents token)]
  | _ => []
  end.

(** The text a token that is not a block stands for in the output: a
    variable between its braces, a text as it is, nothing for a comment. *)
Definition literal_source (token : Token) : string :=
  match token_type token with
  | TOKEN_VAR => "{{" +:+ contents token +:+ "}}"
  | TOKEN_TEXT => contents token
  | _ => EmptyString
  end.

(** The [script] element that points at [url], without further
    attributes. *)
Definition script_element (url : string) : string :=
  "<script src=" +:+ dquote +:+ url +:+ dquote +:+ "></script>".

(** * Properties *)

(** ** Strings *)

#[local] Arguments String.append !s1 s2 /.

Lemma append_nil_r (s : string) : s +:+ EmptyString = s.
Proof. induction s as [|c s IH]; cbn; [done | by rewrite IH]. Qed.

Lemma append_assoc (s1 s2 s3 : string) :
  (s1 +:+ s2) +:+ s3 = s1 +:+ (s2 +:+ s3).
Proof. induction s1 as [|c s1 IH]; cbn; [done | by rewrite IH]. Qed.

Lemma append_cons (c : ascii) (s1 s2 : string) :
  String c s1 +:+ s2 = String c (s1 +:+ s2).
Proof. done. Qed.

(** Bring both sides of an equation between concatenations to the same
    right-nested form. *)
Ltac string_norm :=
  repeat progress
    (cbn [String.append];
     rewrite ?append_assoc, ?append_nil_r, ?append_cons).

(** Joining the fields of [split_on] with the separator gives the string
    back. *)
Lemma split_on_scan_join (sep : ascii) (s w : string) (ws : list string) :
  PyStr.split_on_scan sep s = (w, ws) ->
  PyStr.join (String sep EmptyString) (w :: ws) = s.
Proof.
  revert w ws. induction s as [|c s IH]; intros w ws; cbn.
  - by intros [= <- <-].
  - destruct (PyStr.split_on_scan sep s) as [w' ws'] eqn:Hscan.
    specialize (IH w' ws' eq_refl).
    destruct (Ascii.eqb c sep) eqn:Hc; intros [= <- <-].
    + apply Ascii.eqb_eq in Hc as ->. cbn. by rewrite <- IH.
    + rewrite <- IH. by destruct ws'.
Qed.

Lemma split_on_join (sep : ascii) (s : string) :
  PyStr.join (String sep EmptyString) (PyStr.split_on sep s) = s.
Proof.
  unfold PyStr.split_on.
  destruct (PyStr.split_on_scan sep s) as [w ws] eqn:Hscan.
  by apply split_on_scan_join.
Qed.

(** A string splits into no word exactly when it is white space only. *)
Lemma split_scan_blank (s : string) :
  PyStr.split s = [] <->
  forall c, In c (list_ascii_of_string s) -> PyStr.isspace c = true.
Proof.
  unfold PyStr.split. induction s as [|c s IH]; cbn.
  - split; [by intros _ c [] | done].
  - destruct (PyStr.split_scan s) as [w ws] eqn:Hscan.
    destruct (PyStr.isspace c) eqn:Hc.
    + rewrite IH. split.
      * intros H c' [<- | Hin]; auto.
      * intros H c' Hin. apply H. by right.
    + split; [done |]. intros H. specialize (H c (or_introl eq_refl)).
      congruence.
Qed.

(** The letters that [lower_char] sends to the letters of [true]. *)
Lemma lower_char_t (c : ascii) :
  PyStr.lower_char c = "t"%char <-> c = "t"%char \/ c = "T"%char.
Proof.
  destruct c as [[] [] [] [] [] [] [] []]; vm_compute;
    split; (intros [H | H] || intros H); try discriminate H; auto.
Qed.

Lemma lower_char_r (c : ascii) :
  PyStr.lower_char c = "r"%char <-> c = "r"%char \/ c = "R"%char.
Proof.
  destruct c as [[] [] [] [] [] [] [] []]; vm_compute;
    split; (intros [H | H] || intros H); try discriminate H; auto.
Qed.

Lemma lower_char_u (c : ascii) :
  PyStr.lower_char c = "u"%char <-> c = "u"%char \/ c = "U"%char.
Proof.
  destruct c as [[] [] [] [] [] [] [] []]; vm_compute;
    split; (intros [H | H] || intros H); try discriminate H; auto.
Qed.

Lemma lower_char_e (c : ascii) :
  PyStr.lower_char c = "e"%char <-> c = "e"%char \/ c = "E"%char.
Proof.
  destruct c as [[] [] [] [] [] [] [] []]; vm_compute;
    split; (intros [H | H] || intros H); try discriminate H; auto.
Qed.

(** [s.lower() == 'true'] holds for the sixteen spellings of [true] and for
    nothing else. *)
Lemma lower_true (s : string) :
  PyStr.lower s = "true" <->
  exists c1 c2 c3 c4,
    s = String c1 (String c2 (String c3 (String c4 EmptyString)))
    /\ (c1 = "t" \/ c1 = "T")%char /\ (c2 = "r" \/ c2 = "R")%char
    /\ (c3 = "u" \/ c3 = "U")%char /\ (c4 = "e" \/ c4 = "E")%char.
Proof.
  split.
  - destruct s as [|c1 [|c2 [|c3 [|c4 [|c5 s]]]]]; cbn; try discriminate.
    intros [= H1 H2 H3 H4]. exists c1, c2, c3, c4.
    rewrite <- lower_char_t, <- lower_char_r, <- lower_char_u,
      <- lower_char_e. done.
  - intros (c1 & c2 & c3 & c4 & -> & H1 & H2 & H3 & H4). cbn.
    apply lower_char_t in H1. apply lower_char_r in H2.
    apply lower_char_u in H3. apply lower_char_e in H4. congruence.
Qed.

(** ** Asset tags *)

Section AssetTagProperties.

Variable staticfiles_url : string -> string.
Variable settings : Settings.
Variable JQUERY_MIGRATE_VERSION : string.

Lemma unpack2_split_on (filename : string) :
  length (PyStr.split_on "?" filename) = 2 ->
  exists name params,
    PyStr.split_on "?" filename = [name; params]
    /\ name +:+ "?" +:+ params = filename.
Proof.
  intros Hlen. pose proof (split_on_join "?" filename) as Hjoin.
  destruct (PyStr.split_on "?" filename) as [|name [|params [|x l]]];
    try discriminate Hlen.
  by exists name, params.
Qed.

(** Both branches of lines 113-117 give the file name back. *)
Lemma js_file_filename (filename : string) : js_file filename = Ok filename.
Proof.
  unfold js_file.
  destruct (PyStr.contains "?" filename); cbn [andb]; [| done].
  destruct (Nat.eqb_spec (length (PyStr.split_on "?" filename)) 2)
    as [Hlen | Hlen]; [| done].
  destruct (unpack2_split_on filename Hlen) as (name & params & -> & Heq).
  cbn [unpack2 mbind result_bind]. by rewrite Heq.
Qed.

(** A call with the file name only. *)
Lemma javascript_plain (filename : string) :
  javascript staticfiles_url filename None None (PyBool false)
  = Ok (script_element (staticfiles_url filename)).
Proof.
  unfold javascript. rewrite js_file_filename. cbn. unfold script_element.
  by rewrite !append_assoc.
Qed.

(** C10: the path that [javascript] hands to the static asset resolver is
    its [filename] argument, whether or not the name holds a question mark:
    splitting at the only [?] and joining again changes nothing, so
    a plain call resolves [filename] itself. *)
Theorem js_file_identity (filename : string) :
  js_file filename = Ok filename
  /\ javascript staticfiles_url filename None None (PyBool false)
     = Ok (script_element (staticfiles_url filename)).
Proof. split; [apply js_file_filename | apply javascript_plain]. Qed.

(** What [javascript] returns when the [async] flag is false: the [src]
    attribute, then [type], then [charset]. *)
Lemma javascript_not_async (filename : string) (type charset : option string)
    (async : pyvalue) :
  truthy async = false ->
  javascript staticfiles_url filename type charset async
  = Ok ("<script src=" +:+ dquote +:+ staticfiles_url filename +:+ dquote
        +:+ (if truthy_opt type
             then " type=" +:+ dquote +:+ "text/" +:+ default "" type
                  +:+ dquote
             else "")
        +:+ (if truthy_opt charset
             then " charset=" +:+ dquote +:+ default "" charset +:+ dquote
             else "")
        +:+ "></script>").
Proof.
  intros Hasync. unfold javascript.
  rewrite js_file_filename. cbn. rewrite Hasync. cbn.
  f_equal.
  destruct type as [t |], charset as [c |]; cbn;
    repeat match goal with
      | |- context [PyStr.nonempty ?s] => destruct (PyStr.nonempty s)
      end;
    string_norm; done.
Qed.

(** A true [async] flag that is not a mapping makes [javascript] raise:
    [' async' % async] has an argument and no conversion to take it. *)
Lemma javascript_async_raises (filename : string)
    (type charset : option string) (async : pyvalue) :
  truthy async = true ->
  mapping_args async = false ->
  javascript staticfiles_url filename type charset async = Raise TypeError.
Proof.
  intros Hasync Hmapping. unfold javascript.
  rewrite js_file_filename. cbn. rewrite Hasync.
  destruct async as [| b | n | s | [| x items] | items | items | t sub];
    try done.
  cbn in Hmapping. subst sub. done.
Qed.

(** A true [async] flag that is a mapping is taken by [' async' % async]
    and the attribute is written after [src]. *)
Lemma javascript_async_mapping (filename : string)
    (type charset : option string) (async : pyvalue) :
  truthy async = true ->
  mapping_args async = true ->
  javascript staticfiles_url filename type charset async
  = Ok ("<script src=" +:+ dquote +:+ staticfiles_url filename +:+ dquote
        +:+ " async"
        +:+ (if truthy_opt type
             then " type=" +:+ dquote +:+ "text/" +:+ default "" type
                  +:+ dquote
             else "")
        +:+ (if truthy_opt charset
             then " charset=" +:+ dquote +:+ default "" charset +:+ dquote
             else "")
        +:+ "></script>").
Proof.
  intros Hasync Hmapping. unfold javascript.
  rewrite js_file_filename. cbn. rewrite Hasync.
  assert (format_no_conversion " async" async = Ok " async") as ->.
  { destruct async as [| b | n | s | [| x items] | items | items | t sub];
      try done.
    cbn in Hmapping. subst sub. done. }
  cbn. f_equal.
  destruct type as [t |], charset as [c |]; cbn;
    repeat match goal with
      | |- context [PyStr.nonempty ?s] => destruct (PyStr.nonempty s)
      end;
    string_norm; done.
Qed.

(** C2: [javascript("app.js")] is the [script] element of the resolved
    URL and [type="coffeescript"] adds the [type] attribute, but with
    [async=True] the call does not return a tag: it raises [TypeError]. *)
Theorem javascript_async_true :
  javascript staticfiles_url "app.js" None None (PyBool false)
  = Ok (script_element (staticfiles_url "app.js"))
  /\ javascript staticfiles_url "app.js" (Some "coffeescript") None
       (PyBool false)
     = Ok ("<script src=" +:+ dquote +:+ staticfiles_url "app.js" +:+ dquote
           +:+ " type=" +:+ dquote +:+ "text/coffeescript" +:+ dquote
           +:+ "></script>")
  /\ javascript staticfiles_url "app.js" None None (PyBool true)
     = Raise TypeError.
Proof.
  split; [| split].
  - apply javascript_plain.
  - by rewrite javascript_not_async.
  - by apply javascript_async_raises.
Qed.

(** C5: [_boolean] returns a [bool] unchanged, is true on a string exactly
    when the string spells [true] in some mix of cases, is true on an [int]
    exactly when it is not zero, and is false on a value of another type. *)
Theorem _boolean_coercion :
  (forall b, _boolean (PyBool b) = b)
  /\ (forall s,
        _boolean (PyStr s) = true <->
        exists c1 c2 c3 c4,
          s = String c1 (String c2 (String c3 (String c4 EmptyString)))
          /\ (c1 = "t" \/ c1 = "T")%char /\ (c2 = "r" \/ c2 = "R")%char
          /\ (c3 = "u" \/ c3 = "U")%char /\ (c4 = "e" \/ c4 = "E")%char)
  /\ (forall n, _boolean (PyInt n) = true <-> n <> 0%Z)
  /\ _boolean PyNone = false
  /\ (forall items, _boolean (PyTuple items) = false)
  /\ (forall items, _boolean (PyList items) = false)
  /\ (forall items, _boolean (PyDict items) = false)
  /\ (forall truth subscript, _boolean (PyObject truth subscript) = false)
  /\ _boolean (PyStr "True") = true
  /\ _boolean (PyStr "no") = false
  /\ _boolean (PyInt 0) = false
  /\ _boolean (PyInt 1) = true.
Proof.
  repeat split; try done.
  - intros H. apply lower_true. cbn in H. by apply bool_decide_eq_true in H.
  - intros H. cbn. apply bool_decide_eq_true. by apply lower_true.
  - cbn. intros H ->. done.
  - cbn. intros H. apply negb_true_iff. by apply Z.eqb_neq.
Qed.

Lemma js_lib_element (filename : string) :
  js_lib staticfiles_url filename
  = Ok (script_element (staticfiles_url ("js/libs/" +:+ filename))).
Proof. unfold js_lib. apply javascript_plain. Qed.

(** C9: [jquery_js] returns the library script tag of
    [jquery-<version><suffix>.js], where [version] is the argument, or the
    configured version when the argument is missing or empty, and [suffix]
    is [.min] exactly when [DEBUG] is false; when [migrate] coerces to true
    under [_boolean] the library script tag of
    [jquery-migrate-<JQUERY_MIGRATE_VERSION><suffix>.js] follows after a
    line feed, and not otherwise. *)
Theorem jquery_js_tags (version : option string) (migrate : pyvalue) :
  exists v suffix,
    (v = if truthy_opt version then default "" version
         else JQUERY_VERSION settings)
    /\ (suffix = if DEBUG settings then "" else ".min")
    /\ jquery_js staticfiles_url settings JQUERY_MIGRATE_VERSION version
         migrate
       = Ok (script_element
               (staticfiles_url
                  ("js/libs/" +:+ "jquery-" +:+ v +:+ suffix +:+ ".js"))
             +:+ (if _boolean migrate
                  then newline
                       +:+ script_element
                             (staticfiles_url
                                ("js/libs/" +:+ "jquery-migrate-"
                                 +:+ JQUERY_MIGRATE_VERSION +:+ suffix
                                 +:+ ".js"))
                  else "")).
Proof.
  eexists _, _. split; [reflexivity |]. split; [reflexivity |].
  unfold jquery_js. rewrite !js_lib_element.
  assert ((match version with
           | Some v => if PyStr.nonempty v then v else JQUERY_VERSION settings
           | None => JQUERY_VERSION settings
           end)
          = (if truthy_opt version then default "" version
             else JQUERY_VERSION settings)) as ->.
  { by destruct version. }
  assert ((if negb (DEBUG settings) then ".min" else EmptyString)
          = (if DEBUG settings then "" else ".min")) as ->.
  { by destruct (DEBUG settings). }
  cbn [mbind result_bind].
  destruct (_boolean migrate); cbn [mbind result_bind app PyStr.join].
  - done.
  - by rewrite append_nil_r.
Qed.

End AssetTagProperties.

(** ** The verbatim block extractor *)

Section ExtractorProperties.

Context {tag Node RenderContext : Type}.
Variable engine : Engine tag Node RenderContext.

Local Abbreviation Parser := (Parser tag).
Local Abbreviation Locals := (Locals tag Node).
Local Abbreviation Fragment := (Fragment Node).

(** *** The loop *)

Lemma verbatim_loop_iterations (n fuel : nat) (endtagname : string)
    (parser parser' : Parser) (l l' : Locals) :
  iterations engine n endtagname parser l = Some (parser', l') ->
  verbatim_loop engine (n + fuel) endtagname parser l
  = verbatim_loop engine fuel endtagname parser' l'.
Proof.
  revert parser l. induction n as [|n IH]; intros parser l; cbn.
  - by intros [= -> ->].
  - destruct (loop_body engine endtagname parser l); try done. apply IH.
Qed.

Lemma iterations_S (n : nat) (endtagname : string)
    (parser parser' parser'' : Parser) (l l' l'' : Locals) :
  iterations engine n endtagname parser l = Some (parser', l') ->
  loop_body engine endtagname parser' l' = Continue parser'' l'' ->
  iterations engine (S n) endtagname parser l = Some (parser'', l'').
Proof.
  revert parser l. induction n as [|n IH]; intros parser l.
  - cbn. intros [= -> ->] ->. done.
  - cbn [iterations].
    destruct (loop_body engine endtagname parser l) as [p1 l1 | |];
      try done.
    intros Hn Hbody. specialize (IH _ _ Hn Hbody). done.
Qed.

(** The iteration that meets the end marker leaves the loop and keeps the
    locals. *)
Lemma loop_body_end (endtagname : string) (parser : Parser) (l : Locals)
    (token : Token) (rest : list Token) :
  tokens parser = token :: rest ->
  contents token = endtagname ->
  loop_body engine endtagname parser l
  = Break (mkParser rest (tags parser)) l.
Proof.
  intros Htokens Hend. unfold loop_body. rewrite Htokens.
  by rewrite decide_True.
Qed.

Lemma loop_body_text (endtagname : string) (parser : Parser) (l : Locals)
    (token : Token) (rest : list Token) :
  tokens parser = token :: rest ->
  token_type token = TOKEN_TEXT ->
  contents token <> endtagname ->
  loop_body engine endtagname parser l
  = Continue (mkParser rest (tags parser))
      (append (Text (contents token)) l).
Proof.
  intros Htokens Hkind Hend. unfold loop_body. rewrite Htokens.
  rewrite decide_False by done. by rewrite Hkind.
Qed.

Lemma loop_body_var (endtagname : string) (parser : Parser) (l : Locals)
    (token : Token) (rest : list Token) :
  tokens parser = token :: rest ->
  token_type token = TOKEN_VAR ->
  contents token <> endtagname ->
  loop_body engine endtagname parser l
  = Continue (mkParser rest (tags parser))
      (mkLocals
         (text_and_nodes l
          ++ [Text "{{"; Text (contents token); Text "}}"])
         (command l) (compile_func l) (node l)).
Proof.
  intros Htokens Hkind Hend. unfold loop_body. rewrite Htokens.
  rewrite decide_False by done. rewrite Hkind. unfold append. cbn.
  by rewrite <- !app_assoc.
Qed.

(** What an iteration that leaves the loop has done. *)
Lemma loop_body_Break (endtagname : string) (parser parser' : Parser)
    (l l' : Locals) :
  loop_body engine endtagname parser l = Break parser' l' ->
  exists token,
    tokens parser = token :: tokens parser'
    /\ contents token = endtagname
    /\ tags parser' = tags parser /\ l' = l.
Proof.
  unfold loop_body. destruct (tokens parser) as [|token rest]; [done |].
  destruct (decide (contents token = endtagname)) as [Hend | Hend].
  - intros [= <- <-]. by exists token.
  - repeat case_match; done.
Qed.

(** What an iteration that goes on has done to the stream: it took one
    token, which is not the end marker, and then either nothing more or
    whatever one sub-tag compiler did. *)
Lemma loop_body_Continue (endtagname : string) (parser parser' : Parser)
    (l l' : Locals) :
  loop_body engine endtagname parser l = Continue parser' l' ->
  exists token rest,
    tokens parser = token :: rest
    /\ contents token <> endtagname
    /\ (tokens parser' = rest
        \/ exists f,
             parser'
             = parser_after
                 (call engine f (mkParser rest (tags parser)) token)).
Proof.
  unfold loop_body. destruct (tokens parser) as [|token rest]; [done |].
  destruct (decide (contents token = endtagname)) as [Hend | Hend];
    [done |].
  intros H. exists token, rest. split; [done |]. split; [done |].
  destruct (token_type token).
  - injection H as <- _. by left.
  - injection H as <- _. by left.
  - right. unfold block_branch, bind_command, bind_compile_func, bind_node,
      append_node in H.
    cbn in H. repeat (case_match; simplify_eq/=); eexists;
      match goal with
      | Hc : call _ _ _ _ = _ |- _ => by rewrite Hc
      end.
  - injection H as <- _. by left.
Qed.

(** *** Rendering *)

Lemma render_acc (bits : list Fragment) (context : RenderContext)
    (output : string) :
  fold_left
    (fun output bit =>
       match bit with
       | Text s => output +:+ s
       | NodeBit n => output +:+ render_node engine n context
       end)
    bits output
  = output +:+ render engine bits context.
Proof.
  unfold render. revert output.
  induction bits as [|bit bits IH]; intros output; cbn [fold_left].
  - by rewrite append_nil_r.
  - destruct bit as [s | n].
    + rewrite (IH (output +:+ s)), (IH (EmptyString +:+ s)).
      cbn [String.append]. by rewrite append_assoc.
    + rewrite (IH (output +:+ _)), (IH (EmptyString +:+ _)).
      cbn [String.append]. by rewrite append_assoc.
Qed.

Lemma render_cons_text (s : string) (bits : list Fragment)
    (context : RenderContext) :
  render engine (Text s :: bits) context = s +:+ render engine bits context.
Proof. unfold render at 1. cbn [fold_left]. by rewrite render_acc. Qed.


(** *** Claims *)

(** C3: a [TOKEN_TEXT] token whose contents are the end marker ends the
    extraction before the terminator is reached. On the stream
    [TEXT endverbatim, BLOCK endverbatim], where the only token before the
    terminator is a text, the call returns no fragment and leaves the
    terminator on the stream, so the fragments render to the empty string
    and not to the payload [endverbatim]; on
    [TEXT a, TEXT endverbatim, TEXT b, BLOCK endverbatim] it returns [a]
    only and leaves [TEXT b, BLOCK endverbatim]. *)
Theorem verbatim_tags_text_end_marker (registry : gmap string tag)
    (fuel : nat) (context : RenderContext) :
  verbatim_tags engine (1 + fuel)
    (mkParser
       [mkToken TOKEN_TEXT "endverbatim"; mkToken TOKEN_BLOCK "endverbatim"]
       registry)
    "endverbatim"
  = Some (Returns [] (mkParser [mkToken TOKEN_BLOCK "endverbatim"] registry))
  /\ render engine [] context = EmptyString
  /\ String.concat EmptyString
       (map contents [mkToken TOKEN_TEXT "endverbatim"])
     = "endverbatim"
  /\ verbatim_tags engine (2 + fuel)
       (mkParser
          [mkToken TOKEN_TEXT "a"; mkToken TOKEN_TEXT "endverbatim";
           mkToken TOKEN_TEXT "b"; mkToken TOKEN_BLOCK "endverbatim"]
          registry)
       "endverbatim"
     = Some (Returns [Text "a"]
               (mkParser
                  [mkToken TOKEN_TEXT "b"; mkToken TOKEN_BLOCK "endverbatim"]
                  registry)).
Proof. repeat split; reflexivity. Qed.

(** With sub-tag compilers that only consume from the front, a call that
    returns has removed a prefix of the stream that ends with an end
    marker. *)
Lemma verbatim_loop_frame_front (fuel : nat) (endtagname : string)
    (parser parser' : Parser) (l : Locals) (bits : list Fragment) :
  front_consuming engine ->
  verbatim_loop engine fuel endtagname parser l
  = Some (Returns bits parser') ->
  exists pre term,
    tokens parser = pre ++ term :: tokens parser'
    /\ contents term = endtagname.
Proof.
  intros Hfront. revert parser l.
  induction fuel as [|fuel IH]; intros parser l; cbn [verbatim_loop];
    [done |].
  destruct (loop_body engine endtagname parser l) as [p1 l1 | p1 l1 | e]
    eqn:Hbody; [| | done].
  - intros Hloop.
    destruct (IH _ _ Hloop) as (pre & term & Hsplit & Hterm).
    apply loop_body_Continue in Hbody
      as (token & rest & Htokens & _ & [Hrest | [f ->]]).
    + exists (token :: pre), term. split; [| done].
      rewrite Htokens, <- Hrest, Hsplit. done.
    + destruct (Hfront f (mkParser rest (tags parser)) token)
        as [consumed Hconsumed].
      cbn [tokens] in Hconsumed.
      exists (token :: consumed ++ pre), term. split; [| done].
      rewrite Htokens, Hconsumed, Hsplit. cbn. by rewrite <- app_assoc.
  - intros [= <- <-].
    apply loop_body_Break in Hbody as (token & Htokens & Hend & _).
    by exists [], token.
Qed.

(** With sub-tag compilers that leave the stream alone, the prefix removed
    holds no end marker before its last token. *)
Lemma verbatim_loop_frame_preserving (fuel : nat) (endtagname : string)
    (parser parser' : Parser) (l : Locals) (bits : list Fragment) :
  stream_preserving engine ->
  verbatim_loop engine fuel endtagname parser l
  = Some (Returns bits parser') ->
  exists pre term,
    tokens parser = pre ++ term :: tokens parser'
    /\ contents term = endtagname
    /\ Forall (fun t => contents t <> endtagname) pre.
Proof.
  intros Hkeep. revert parser l.
  induction fuel as [|fuel IH]; intros parser l; cbn [verbatim_loop];
    [done |].
  destruct (loop_body engine endtagname parser l) as [p1 l1 | p1 l1 | e]
    eqn:Hbody; [| | done].
  - intros Hloop.
    destruct (IH _ _ Hloop) as (pre & term & Hsplit & Hterm & Hpre).
    apply loop_body_Continue in Hbody
      as (token & rest & Htokens & Hne & Hrest).
    assert (tokens p1 = rest) as Hp1.
    { destruct Hrest as [Hrest | [f ->]]; [done |]. by rewrite Hkeep. }
    exists (token :: pre), term. split; [| split; [done |]].
    + rewrite Htokens, <- Hp1, Hsplit. done.
    + by apply Forall_cons.
  - intros [= <- <-].
    apply loop_body_Break in Hbody as (token & Htokens & Hend & _).
    by exists [], token.
Qed.

(** With sub-tag compilers that only consume from the front, the loop ends
    within one iteration per token and one more: it returns or it raises. *)
Lemma verbatim_loop_terminates (fuel : nat) (endtagname : string)
    (parser : Parser) (l : Locals) :
  front_consuming engine ->
  length (tokens parser) < fuel ->
  is_Some (verbatim_loop engine fuel endtagname parser l).
Proof.
  intros Hfront. revert parser l.
  induction fuel as [|fuel IH]; intros parser l Hfuel; [lia |].
  cbn [verbatim_loop].
  destruct (loop_body engine endtagname parser l) as [p1 l1 | p1 l1 | e]
    eqn:Hbody; [| done..].
  apply IH.
  apply loop_body_Continue in Hbody
    as (token & rest & Htokens & _ & [Hrest | [f ->]]).
  - rewrite Htokens in Hfuel. cbn in Hfuel. rewrite Hrest. lia.
  - destruct (Hfront f (mkParser rest (tags parser)) token)
      as [consumed Hconsumed].
    cbn [tokens] in Hconsumed.
    rewrite Htokens in Hfuel. cbn in Hfuel.
    rewrite Hconsumed, length_app in Hfuel. lia.
Qed.

(** So a call of [verbatim_tags] ends: one unit of fuel per token of the
    stream and one more are enough for it to return or to raise. *)
Lemma verbatim_tags_terminates (fuel : nat) (parser : Parser)
    (endtagname : string) :
  front_consuming engine ->
  length (tokens parser) < fuel ->
  is_Some (verbatim_tags engine fuel parser endtagname).
Proof. intros Hfront Hfuel. by apply verbatim_loop_terminates. Qed.

(** The frame of a call that returns. With sub-tag compilers that only
    consume from the front of the stream, the call has removed a prefix of
    the stream whose last token has the end marker as its contents,
    whatever the kind of that token, and what it leaves is the rest of the
    stream as it was, in order. With sub-tag compilers that leave the
    stream alone, no earlier token of the prefix has the end marker as its
    contents: the call stops at the first such token. *)
Theorem verbatim_tags_frame (fuel : nat) (parser parser' : Parser)
    (endtagname : string) (bits : list Fragment) :
  verbatim_tags engine fuel parser endtagname
  = Some (Returns bits parser') ->
  (front_consuming engine ->
   exists pre term,
     tokens parser = pre ++ term :: tokens parser'
     /\ contents term = endtagname)
  /\ (stream_preserving engine ->
      exists pre term,
        tokens parser = pre ++ term :: tokens parser'
        /\ contents term = endtagname
        /\ Forall (fun t => contents t <> endtagname) pre).
Proof.
  intros Hcall. split; intros Hengine.
  - by eapply verbatim_loop_frame_front.
  - by eapply verbatim_loop_frame_preserving.
Qed.

(** C8: the stream is not always left right after the terminator. On
    [TEXT endverbatim, BLOCK endverbatim, TEXT z] the call returns after
    the text token, whose contents are the end marker, and leaves
    [BLOCK endverbatim, TEXT z]: the terminator itself is still on the
    stream for the next caller. *)
Theorem verbatim_tags_frame_end_marker (registry : gmap string tag)
    (fuel : nat) :
  verbatim_tags engine (1 + fuel)
    (mkParser
       [mkToken TOKEN_TEXT "endverbatim"; mkToken TOKEN_BLOCK "endverbatim";
        mkToken TOKEN_TEXT "z"]
       registry)
    "endverbatim"
  = Some (Returns []
            (mkParser
               [mkToken TOKEN_BLOCK "endverbatim"; mkToken TOKEN_TEXT "z"]
               registry)).
Proof. reflexivity. Qed.

(** C4: on the stream [TEXT a, VARIABLE x, TEXT b, BLOCK endverbatim] the
    call returns the five strings [a], [{{], [x], [}}], [b], which render
    as [a{{x}}b]; but a [TOKEN_VAR] token whose contents are the end marker
    is not emitted at all: on [VARIABLE endverbatim, BLOCK endverbatim] the
    call returns no fragment and leaves the terminator on the stream. *)
Theorem verbatim_tags_variable_end_marker (registry : gmap string tag)
    (fuel : nat) (context : RenderContext) :
  verbatim_tags engine (4 + fuel)
    (mkParser
       [mkToken TOKEN_TEXT "a"; mkToken TOKEN_VAR "x";
        mkToken TOKEN_TEXT "b"; mkToken TOKEN_BLOCK "endverbatim"]
       registry)
    "endverbatim"
  = Some (Returns [Text "a"; Text "{{"; Text "x"; Text "}}"; Text "b"]
            (mkParser [] registry))
  /\ render engine [Text "a"; Text "{{"; Text "x"; Text "}}"; Text "b"]
       context
     = "a{{x}}b"
  /\ verbatim_tags engine (1 + fuel)
       (mkParser
          [mkToken TOKEN_VAR "endverbatim"; mkToken TOKEN_BLOCK "endverbatim"]
          registry)
       "endverbatim"
     = Some (Returns []
               (mkParser [mkToken TOKEN_BLOCK "endverbatim"] registry)).
Proof. repeat split; reflexivity. Qed.

(** The iteration of a [TOKEN_BLOCK] token with no word in its contents,
    when the empty-block hook raises. *)
Lemma loop_body_empty_block (endtagname : string) (parser : Parser)
    (l : Locals) (token : Token) (rest : list Token) (e : exn) :
  tokens parser = token :: rest ->
  token_type token = TOKEN_BLOCK ->
  contents token <> endtagname ->
  PyStr.split (contents token) = [] ->
  empty_block_tag engine (mkParser rest (tags parser)) token = Some e ->
  loop_body engine endtagname parser l = Abort e.
Proof.
  intros Htokens Hkind Hend Hsplit Hhook. unfold loop_body.
  rewrite Htokens, decide_False, Hkind by done.
  unfold block_branch, bind_command. by rewrite Hsplit, Hhook.
Qed.

(** The iteration of a [TOKEN_BLOCK] token whose first word is not in the
    registry, when the invalid-block hook raises. *)
Lemma loop_body_invalid_block (endtagname : string) (parser : Parser)
    (l : Locals) (token : Token) (rest : list Token) (cmd : string)
    (words : list string) (e : exn) :
  tokens parser = token :: rest ->
  token_type token = TOKEN_BLOCK ->
  contents token <> endtagname ->
  PyStr.split (contents token) = cmd :: words ->
  tags parser !! cmd = None ->
  invalid_block_tag engine (mkParser rest (tags parser)) token cmd = Some e ->
  loop_body engine endtagname parser l = Abort e.
Proof.
  intros Htokens Hkind Hend Hsplit Hlookup Hhook. unfold loop_body.
  rewrite Htokens, decide_False, Hkind by done.
  unfold block_branch, bind_command, bind_compile_func. rewrite Hsplit.
  cbn. by rewrite Hlookup, Hhook.
Qed.

(** C6: let the loop reach, after [n] iterations, a [TOKEN_BLOCK] token
    that is not the end marker. If its contents hold no word and the
    parser's empty-block hook raises [e], the iteration ends with [e]
    without going on, and [verbatim_tags] raises [e]. If its first word is
    not a key of the tag registry and the parser's invalid-block hook
    raises [e], the same holds. *)
Theorem verbatim_tags_bad_block (endtagname : string) (parser p : Parser)
    (l : Locals) (n fuel : nat) (token : Token) (rest : list Token) :
  iterations engine n endtagname parser no_locals = Some (p, l) ->
  tokens p = token :: rest ->
  token_type token = TOKEN_BLOCK ->
  contents token <> endtagname ->
  (forall e,
     PyStr.split (contents token) = [] ->
     empty_block_tag engine (mkParser rest (tags p)) token = Some e ->
     loop_body engine endtagname p l = Abort e
     /\ verbatim_tags engine (n + S fuel) parser endtagname
        = Some (Raises e))
  /\ (forall cmd words e,
        PyStr.split (contents token) = cmd :: words ->
        tags p !! cmd = None ->
        invalid_block_tag engine (mkParser rest (tags p)) token cmd
        = Some e ->
        loop_body engine endtagname p l = Abort e
        /\ verbatim_tags engine (n + S fuel) parser endtagname
           = Some (Raises e)).
Proof.
  intros Hn Htokens Hkind Hend. unfold verbatim_tags.
  rewrite (verbatim_loop_iterations _ _ _ _ _ _ _ Hn). cbn [verbatim_loop].
  split.
  - intros e Hsplit Hhook.
    assert (loop_body engine endtagname p l = Abort e) as Hbody
      by by eapply loop_body_empty_block.
    by rewrite Hbody.
  - intros cmd words e Hsplit Hlookup Hhook.
    assert (loop_body engine endtagname p l = Abort e) as Hbody
      by by eapply loop_body_invalid_block.
    by rewrite Hbody.
Qed.

(** The iteration of a [TOKEN_BLOCK] token whose compile function raises a
    syntax error: when the error-recovery hook returns a false value the
    error goes on; when it returns a true value the iteration goes on to
    [text_and_nodes.append(node)], which raises when [node] is not bound
    yet and otherwise adds again the node of an earlier sub-tag. *)
Lemma loop_body_syntax_error (endtagname : string) (parser parser' : Parser)
    (l : Locals) (token : Token) (rest : list Token) (cmd : string)
    (words : list string) (f : tag) (msg : string) :
  tokens parser = token :: rest ->
  token_type token = TOKEN_BLOCK ->
  contents token <> endtagname ->
  PyStr.split (contents token) = cmd :: words ->
  tags parser !! cmd = Some f ->
  call engine f (mkParser rest (tags parser)) token
  = CompileRaised (TemplateSyntaxError msg) parser' ->
  loop_body engine endtagname parser l
  = if compile_function_error engine parser' token (TemplateSyntaxError msg)
    then match node l with
         | None => Abort (UnboundLocalError "node")
         | Some earlier =>
             Continue parser'
               (mkLocals (text_and_nodes l ++ [NodeBit earlier])
                  (Some cmd) (Some f) (Some earlier))
         end
    else Abort (TemplateSyntaxError msg).
Proof.
  intros Htokens Hkind Hend Hsplit Hlookup Hcall. unfold loop_body.
  rewrite Htokens, decide_False, Hkind by done.
  unfold block_branch, bind_command, bind_compile_func, bind_node.
  rewrite Hsplit. cbn. rewrite Hlookup. cbn. rewrite Hcall.
  destruct (compile_function_error _ _ _ _); [| done]. cbn.
  unfold append_node. cbn. by destruct (node l).
Qed.

(** C1: the loop leaves at the first token whose contents equal the end
    marker, whatever its kind: on the stream
    [VARIABLE endverbatim, TEXT b, BLOCK endverbatim] the call returns no
    fragment and leaves [TEXT b, BLOCK endverbatim] on the stream, and the
    same holds when the first token is a [TOKEN_TEXT] token. *)
Theorem verbatim_tags_end_marker_any_kind (registry : gmap string tag)
    (fuel : nat) :
  verbatim_tags engine (S fuel)
    (mkParser
       [mkToken TOKEN_VAR "endverbatim"; mkToken TOKEN_TEXT "b";
        mkToken TOKEN_BLOCK "endverbatim"]
       registry)
    "endverbatim"
  = Some (Returns []
            (mkParser
               [mkToken TOKEN_TEXT "b"; mkToken TOKEN_BLOCK "endverbatim"]
               registry))
  /\ verbatim_tags engine (S fuel)
       (mkParser
          [mkToken TOKEN_TEXT "endverbatim"; mkToken TOKEN_TEXT "b";
           mkToken TOKEN_BLOCK "endverbatim"]
          registry)
       "endverbatim"
     = Some (Returns []
               (mkParser
                  [mkToken TOKEN_TEXT "b"; mkToken TOKEN_BLOCK "endverbatim"]
                  registry)).
Proof. split; reflexivity. Qed.

End ExtractorProperties.

(** ** The parser with simple tags *)

Lemma simple_engine_preserving (handled : bool) :
  stream_preserving (simple_engine handled).
Proof. intros f parser token. by destruct f. Qed.

Lemma simple_engine_front (handled : bool) :
  front_consuming (simple_engine handled).
Proof. intros f parser token. exists []. by destruct f. Qed.

(** C7: with an error-recovery hook that declares every syntax error
    handled, a sub-tag whose compile function raises a syntax error does
    not leave the fragments as they were: as the first sub-tag of the block
    it makes [verbatim_tags] raise [UnboundLocalError] for [node], and after
    a sub-tag that compiled it adds the node of that earlier sub-tag a
    second time. With a hook that declares the error unhandled the syntax
    error propagates. *)
Theorem verbatim_tags_swallowed_error :
  verbatim_tags (simple_engine true) 2
    (mkParser
       [mkToken TOKEN_BLOCK "broken"; mkToken TOKEN_BLOCK "endverbatim"]
       simple_tags)
    "endverbatim"
  = Some (Raises (UnboundLocalError "node"))
  /\ verbatim_tags (simple_engine true) 3
       (mkParser
          [mkToken TOKEN_BLOCK "csrf_token"; mkToken TOKEN_BLOCK "broken";
           mkToken TOKEN_BLOCK "endverbatim"]
          simple_tags)
       "endverbatim"
     = Some (Returns [NodeBit "<input>"; NodeBit "<input>"]
               (mkParser [] simple_tags))
  /\ verbatim_tags (simple_engine false) 2
       (mkParser
          [mkToken TOKEN_BLOCK "broken"; mkToken TOKEN_BLOCK "endverbatim"]
          simple_tags)
       "endverbatim"
     = Some (Raises (TemplateSyntaxError "bad")).
Proof. repeat split; vm_compute; reflexivity. Qed.

(** *** Instances *)

Lemma verbatim_tags_bad_block_witness :
  verbatim_tags (simple_engine false) (1 + 1)
    (mkParser
       [mkToken TOKEN_TEXT "a"; mkToken TOKEN_BLOCK "  ";
        mkToken TOKEN_BLOCK "endverbatim"]
       simple_tags)
    "endverbatim"
  = Some (Raises MalformedBlock)
  /\ verbatim_tags (simple_engine false) (1 + 1)
       (mkParser
          [mkToken TOKEN_TEXT "a"; mkToken TOKEN_BLOCK "nope now";
           mkToken TOKEN_BLOCK "endverbatim"]
          simple_tags)
       "endverbatim"
     = Some (Raises (UnknownTag "nope")).
Proof.
  split.
  - refine (proj2 (proj1 (verbatim_tags_bad_block (simple_engine false)
             "endverbatim" _
             (mkParser
                [mkToken TOKEN_BLOCK "  "; mkToken TOKEN_BLOCK "endverbatim"]
                simple_tags)
             (mkLocals [Text "a"] None None None) 1 0
             (mkToken TOKEN_BLOCK "  ") [mkToken TOKEN_BLOCK "endverbatim"]
             _ _ _ _) MalformedBlock _ _)).
    all: first [reflexivity | discriminate].
  - refine (proj2 (proj2 (verbatim_tags_bad_block (simple_engine false)
             "endverbatim" _
             (mkParser
                [mkToken TOKEN_BLOCK "nope now";
                 mkToken TOKEN_BLOCK "endverbatim"]
                simple_tags)
             (mkLocals [Text "a"] None None None) 1 0
             (mkToken TOKEN_BLOCK "nope now")
             [mkToken TOKEN_BLOCK "endverbatim"]
             _ _ _ _) "nope" ["now"] (UnknownTag "nope") _ _ _)).
    all: first [reflexivity | discriminate | vm_compute; reflexivity].
Defined.

Lemma verbatim_tags_frame_witness :
  (exists pre term,
     [mkToken TOKEN_TEXT "a"; mkToken TOKEN_BLOCK "csrf_token";
      mkToken TOKEN_BLOCK "endverbatim"; mkToken TOKEN_TEXT "z"]
     = pre ++ term :: [mkToken TOKEN_TEXT "z"]
     /\ contents term = "endverbatim")
  /\ (exists pre term,
        [mkToken TOKEN_TEXT "a"; mkToken TOKEN_BLOCK "csrf_token";
         mkToken TOKEN_BLOCK "endverbatim"; mkToken TOKEN_TEXT "z"]
        = pre ++ term :: [mkToken TOKEN_TEXT "z"]
        /\ contents term = "endverbatim"
        /\ Forall (fun t => contents t <> "endverbatim") pre).
Proof.
  pose proof (verbatim_tags_frame (simple_engine false) 3
                (mkParser
                   [mkToken TOKEN_TEXT "a"; mkToken TOKEN_BLOCK "csrf_token";
                    mkToken TOKEN_BLOCK "endverbatim"; mkToken TOKEN_TEXT "z"]
                   simple_tags)
                (mkParser [mkToken TOKEN_TEXT "z"] simple_tags)
                "endverbatim" [Text "a"; NodeBit "<input>"]
                ltac:(vm_compute; reflexivity)) as [Hfront Hkeep].
  split.
  - exact (Hfront (simple_engine_front false)).
  - exact (Hkeep (simple_engine_preserving false)).
Defined.

(** * Further properties *)

(** ** Asset tags *)

Section AssetTagExtras.

Variable staticfiles_url : string -> string.
Variable settings : Settings.

(** The ways a call of [javascript] ends. *)
Lemma javascript_cases (filename : string) (type charset : option string)
    (async : pyvalue) :
  javascript staticfiles_url filename type charset async
  = if truthy async && negb (mapping_args async) then Raise TypeError
    else Ok ("<script src=" +:+ dquote +:+ staticfiles_url filename
             +:+ dquote
             +:+ (if truthy async then " async" else "")
             +:+ (if truthy_opt type
                  then " type=" +:+ dquote +:+ "text/" +:+ default "" type
                       +:+ dquote
                  else "")
             +:+ (if truthy_opt charset
                  then " charset=" +:+ dquote +:+ default "" charset
                       +:+ dquote
                  else "")
             +:+ "></script>").
Proof.
  destruct (truthy async) eqn:Hasync; cbn [andb].
  - destruct (mapping_args async) eqn:Hmapping; cbn [negb].
    + by apply javascript_async_mapping.
    + by apply javascript_async_raises.
  - by apply javascript_not_async.
Qed.

(** [javascript] raises exactly when its [async] flag is true and is not
    a mapping for the [%] operator (a true [bool], [int] or string, a
    non-empty [tuple], an object without [__getitem__]), and then it is
    [TypeError]; for a true [list], [dict] or other object with
    [__getitem__] it returns the element with the [async] attribute, and
    for a false flag without it; the attributes come in the order [src],
    [async], [type], [charset]. *)
Theorem javascript_outcome (filename : string) (type charset : option string)
    (async : pyvalue) :
  javascript staticfiles_url filename type charset async
  = if truthy async && negb (mapping_args async) then Raise TypeError
    else Ok ("<script src=" +:+ dquote +:+ staticfiles_url filename
             +:+ dquote
             +:+ (if truthy async then " async" else "")
             +:+ (if truthy_opt type
                  then " type=" +:+ dquote +:+ "text/" +:+ default "" type
                       +:+ dquote
                  else "")
             +:+ (if truthy_opt charset
                  then " charset=" +:+ dquote +:+ default "" charset
                       +:+ dquote
                  else "")
             +:+ "></script>").
Proof. apply javascript_cases. Qed.

(** The script shortcuts never raise: [js] returns the [script] element
    with the [type] it is given ([text/javascript] for the default),
    [coffeescript] and [coffee] return the same element of type
    [text/coffeescript], and the file name with its query string reaches
    the resolver unchanged. *)
Theorem script_shortcuts (filename : string) (type : option string) :
  js staticfiles_url filename type
  = Ok ("<script src=" +:+ dquote +:+ staticfiles_url filename +:+ dquote
        +:+ (if truthy_opt type
             then " type=" +:+ dquote +:+ "text/" +:+ default "" type
                  +:+ dquote
             else "")
        +:+ "></script>")
  /\ js staticfiles_url filename (Some "javascript")
     = Ok ("<script src=" +:+ dquote +:+ staticfiles_url filename +:+ dquote
           +:+ " type=" +:+ dquote +:+ "text/javascript" +:+ dquote
           +:+ "></script>")
  /\ coffeescript staticfiles_url filename
     = Ok ("<script src=" +:+ dquote +:+ staticfiles_url filename +:+ dquote
           +:+ " type=" +:+ dquote +:+ "text/coffeescript" +:+ dquote
           +:+ "></script>")
  /\ coffee staticfiles_url filename = coffeescript staticfiles_url filename.
Proof.
  unfold js, coffeescript, coffee. rewrite !javascript_not_async by done.
  repeat split; cbn [truthy_opt PyStr.nonempty default]; by string_norm.
Qed.

(** What [css] returns: the [link] element with [rel] and [href], then
    [media], [type] and [charset] in this order, each only for a value
    that is neither [None] nor the empty string. *)
Lemma css_element (filename : string) (type media charset : option string) :
  css staticfiles_url filename type media charset
  = "<link rel=" +:+ dquote +:+ "stylesheet" +:+ dquote +:+ " href="
    +:+ dquote +:+ staticfiles_url filename +:+ dquote
    +:+ (if truthy_opt media
         then " media=" +:+ dquote +:+ default "" media +:+ dquote
         else "")
    +:+ (if truthy_opt type
         then " type=" +:+ dquote +:+ "text/" +:+ default "" type +:+ dquote
         else "")
    +:+ (if truthy_opt charset
         then " charset=" +:+ dquote +:+ default "" charset +:+ dquote
         else "")
    +:+ ">".
Proof.
  unfold css.
  destruct type as [t |], media as [m |], charset as [c |]; cbn;
    repeat match goal with
      | |- context [PyStr.nonempty ?s] => destruct (PyStr.nonempty s)
      end;
    string_norm; done.
Qed.

(** The stylesheet shortcuts return the [link] element of the resolved
    URL with a fixed [type]: [text/less], [text/stylus] for [stylus] and
    [styl], [text/x-sass] and [text/x-scss]; no [media] and no [charset]. *)
Theorem stylesheet_shortcuts (filename : string) :
  let link t :=
    "<link rel=" +:+ dquote +:+ "stylesheet" +:+ dquote +:+ " href="
    +:+ dquote +:+ staticfiles_url filename +:+ dquote
    +:+ " type=" +:+ dquote +:+ "text/" +:+ t +:+ dquote +:+ ">" in
  less staticfiles_url filename = link "less"
  /\ stylus staticfiles_url filename = link "stylus"
  /\ styl staticfiles_url filename = link "stylus"
  /\ sass staticfiles_url filename = link "x-sass"
  /\ scss staticfiles_url filename = link "x-scss".
Proof.
  unfold less, stylus, styl, sass, scss. rewrite !css_element.
  repeat split; cbn [truthy_opt PyStr.nonempty default]; by string_norm.
Qed.

(** An empty string for [type], [media] or [charset] is taken as a missing
    argument by [javascript] and by [css]: no attribute with an empty value
    is written. *)
Theorem empty_attribute_dropped (filename : string)
    (type media charset : option string) (async : pyvalue) :
  javascript staticfiles_url filename (Some "") charset async
  = javascript staticfiles_url filename None charset async
  /\ javascript staticfiles_url filename type (Some "") async
     = javascript staticfiles_url filename type None async
  /\ css staticfiles_url filename (Some "") media charset
     = css staticfiles_url filename None media charset
  /\ css staticfiles_url filename type (Some "") charset
     = css staticfiles_url filename type None charset
  /\ css staticfiles_url filename type media (Some "")
     = css staticfiles_url filename type media None.
Proof. rewrite !javascript_cases, !css_element. done. Qed.

(** [_boolean] is stricter than the truth value of Python: a value it
    coerces to true is true in a condition, while a true value such as the
    string [yes] may coerce to false. *)
Theorem _boolean_implies_truthy :
  (forall value, _boolean value = true -> truthy value = true)
  /\ truthy (PyStr "yes") = true /\ _boolean (PyStr "yes") = false.
Proof.
  split; [| done].
  intros [| b | n | s | items | items | items | truth subscript]; cbn;
    try done.
  intros H%bool_decide_eq_true. by destruct s.
Qed.

(** The dictionary of [django_js_init] is the dictionary of [django_js] for
    the same arguments without its [minified] entry, and that entry is the
    negation of [DEBUG]. *)
Theorem django_js_init_django_js {TemplateContext : Type}
    (context : TemplateContext) (jquery i18n csrf init : pyvalue) :
  django_js_init context jquery i18n csrf init
  = delete "minified" <$> django_js settings context jquery i18n csrf init
  /\ django_js settings context jquery i18n csrf init !! "js"
     ≫= (fun js => js !! "minified")
     = Some (negb (DEBUG settings)).
Proof.
  unfold django_js, django_js_init. split.
  - rewrite map_fmap_singleton. reflexivity.
  - rewrite lookup_singleton_eq. reflexivity.
Qed.

End AssetTagExtras.

Lemma _boolean_implies_truthy_witness :
  _boolean (PyStr "TRUE") = true /\ truthy (PyStr "TRUE") = true.
Proof.
  split; [reflexivity |].
  apply (proj1 _boolean_implies_truthy (PyStr "TRUE")). reflexivity.
Defined.

(** ** The verbatim block extractor *)

Section ExtractorExtras.

Context {tag Node RenderContext : Type}.
Variable engine : Engine tag Node RenderContext.

Local Abbreviation Parser := (Parser tag).
Local Abbreviation Locals := (Locals tag Node).
Local Abbreviation Fragment := (Fragment Node).

(** *** Tokens that are not blocks *)

Lemma loop_body_literal (endtagname : string) (parser : Parser) (l : Locals)
    (token : Token) (rest : list Token) :
  tokens parser = token :: rest ->
  token_type token <> TOKEN_BLOCK ->
  contents token <> endtagname ->
  loop_body engine endtagname parser l
  = Continue (mkParser rest (tags parser))
      (mkLocals (text_and_nodes l ++ literal_bits token)
         (command l) (compile_func l) (node l)).
Proof.
  intros Htokens Hkind Hend. unfold literal_bits.
  destruct (token_type token) eqn:Hty; [| | done |].
  - erewrite loop_body_text by done. done.
  - by erewrite loop_body_var.
  - unfold loop_body. rewrite Htokens, decide_False, Hty by done.
    rewrite app_nil_r. by destruct l.
Qed.

Lemma iterations_literal (endtagname : string) (pre rest : list Token)
    (registry : gmap string tag) (l : Locals) :
  Forall (fun t => token_type t <> TOKEN_BLOCK) pre ->
  Forall (fun t => contents t <> endtagname) pre ->
  iterations engine (length pre) endtagname
    (mkParser (pre ++ rest) registry) l
  = Some (mkParser rest registry,
          mkLocals (text_and_nodes l ++ flat_map literal_bits pre)
            (command l) (compile_func l) (node l)).
Proof.
  revert l. induction pre as [|token pre IH]; intros l Hkind Hend.
  - cbn. rewrite app_nil_r. by destruct l.
  - apply Forall_cons in Hkind as [Hkind Hkinds].
    apply Forall_cons in Hend as [Hend Hends].
    cbn [length iterations].
    erewrite loop_body_literal by (cbn; eauto). cbn [tags].
    rewrite (IH _ Hkinds Hends). cbn. by rewrite <- app_assoc.
Qed.

(** *** Rendering *)

Lemma render_append (bits1 bits2 : list Fragment) (context : RenderContext) :
  render engine (bits1 ++ bits2) context
  = render engine bits1 context +:+ render engine bits2 context.
Proof.
  unfold render at 1. rewrite fold_left_app. rewrite render_acc.
  reflexivity.
Qed.

(** Rendering goes through the fragments from left to right, so the
    rendering of a concatenation is the concatenation of the renderings. *)
Theorem render_app (bits1 bits2 : list Fragment) (context : RenderContext) :
  render engine (bits1 ++ bits2) context
  = render engine bits1 context +:+ render engine bits2 context.
Proof. apply render_append. Qed.

Lemma concat_cons (s : string) (parts : list string) :
  String.concat EmptyString (s :: parts)
  = s +:+ String.concat EmptyString parts.
Proof. destruct parts; cbn; [by rewrite append_nil_r | done]. Qed.

Lemma render_literal_bits (token : Token) (context : RenderContext) :
  render engine (literal_bits token) context = literal_source token.
Proof.
  unfold literal_bits, literal_source.
  by destruct (token_type token).
Qed.

Lemma render_literal (pre : list Token) (context : RenderContext) :
  render engine (flat_map literal_bits pre) context
  = String.concat EmptyString (map literal_source pre).
Proof.
  induction pre as [|token pre IH]; [done |].
  cbn [flat_map map]. by rewrite render_append, concat_cons, IH,
    render_literal_bits.
Qed.

(** A block without sub-tags comes out as it went in. Let the stream be
    [pre], then a token whose contents are the end marker, then [rest],
    where no token of [pre] is a block and none has the end marker as its
    contents. Then [verbatim_tags] returns the strings of the text and
    variable tokens of [pre] in order, drops its comment tokens, leaves
    [rest] on the stream and the registry as it was, and the fragments
    render to the text of the tokens with the braces put back around each
    variable. *)
Theorem verbatim_tags_literal (endtagname : string)
    (pre : list Token) (term : Token) (rest : list Token)
    (registry : gmap string tag) (fuel : nat) (context : RenderContext) :
  Forall (fun t => token_type t <> TOKEN_BLOCK) pre ->
  Forall (fun t => contents t <> endtagname) pre ->
  contents term = endtagname ->
  length pre < fuel ->
  verbatim_tags engine fuel (mkParser (pre ++ term :: rest) registry)
    endtagname
  = Some (Returns (flat_map literal_bits pre) (mkParser rest registry))
  /\ render engine (flat_map literal_bits pre) context
     = String.concat EmptyString (map literal_source pre).
Proof.
  intros Hkind Hend Hterm Hfuel. split; [| apply render_literal].
  unfold verbatim_tags.
  replace fuel with (length pre + S (fuel - S (length pre))) by lia.
  erewrite verbatim_loop_iterations by (by apply iterations_literal).
  cbn [verbatim_loop]. erewrite loop_body_end by (cbn; done). done.
Qed.


(** With sub-tag compilers that only consume from the front, a call on a
    stream in which no token has the end marker as its contents never
    returns a list: given one unit of fuel per token and one more, it
    raises. *)
Theorem verbatim_tags_no_end_marker (endtagname : string) (parser : Parser)
    (fuel : nat) :
  front_consuming engine ->
  Forall (fun t => contents t <> endtagname) (tokens parser) ->
  length (tokens parser) < fuel ->
  exists e, verbatim_tags engine fuel parser endtagname = Some (Raises e).
Proof.
  intros Hfront Hend Hfuel.
  destruct (verbatim_loop_terminates engine fuel endtagname parser no_locals
              Hfront Hfuel) as [[bits parser' | e] Hout].
  - apply (verbatim_loop_frame_front engine) in Hout
      as (pre & term & Hsplit & Hterm); [| done].
    rewrite Hsplit in Hend. apply Forall_app in Hend as [_ Hend].
    apply Forall_cons in Hend as [Hend _]. done.
  - by exists e.
Qed.

(** *** Sub-tags *)



(** What an iteration that goes on has done to the parser. *)
Lemma loop_body_Continue_parser (endtagname : string)
    (parser parser' : Parser) (l l' : Locals) :
  loop_body engine endtagname parser l = Continue parser' l' ->
  exists token rest,
    tokens parser = token :: rest
    /\ (parser' = mkParser rest (tags parser)
        \/ exists f,
             parser'
             = parser_after
                 (call engine f (mkParser rest (tags parser)) token)).
Proof.
  unfold loop_body. destruct (tokens parser) as [|token rest]; [done |].
  destruct (decide (contents token = endtagname)) as [Hend | Hend];
    [done |].
  intros H. exists token, rest. split; [done |].
  destruct (token_type token).
  - injection H as <- _. by left.
  - injection H as <- _. by left.
  - right. unfold block_branch, bind_command, bind_compile_func, bind_node,
      append_node in H.
    cbn in H. repeat (case_match; simplify_eq/=); eexists;
      match goal with
      | Hc : call _ _ _ _ = _ |- _ => by rewrite Hc
      end.
  - injection H as <- _. by left.
Qed.

Lemma verbatim_loop_registry (fuel : nat) (endtagname : string)
    (parser parser' : Parser) (l : Locals) (bits : list Fragment) :
  registry_preserving engine ->
  verbatim_loop engine fuel endtagname parser l
  = Some (Returns bits parser') ->
  tags parser' = tags parser.
Proof.
  intros Hkeep. revert parser l.
  induction fuel as [|fuel IH]; intros parser l; cbn [verbatim_loop];
    [done |].
  destruct (loop_body engine endtagname parser l) as [p1 l1 | p1 l1 | e]
    eqn:Hbody; [| | done].
  - intros Hloop. rewrite (IH _ _ Hloop).
    apply loop_body_Continue_parser in Hbody
      as (token & rest & _ & [-> | [f ->]]); [done |].
    by rewrite Hkeep.
  - intros [= <- <-].
    by apply (loop_body_Break engine) in Hbody as (_ & _ & _ & Htags & _).
Qed.

(** The extractor itself never writes to the tag registry: when the
    sub-tag compilers leave the registry as they found it, the parser a
    returning call leaves has the registry it started with. *)
Theorem verbatim_tags_registry (fuel : nat) (parser parser' : Parser)
    (endtagname : string) (bits : list Fragment) :
  registry_preserving engine ->
  verbatim_tags engine fuel parser endtagname
  = Some (Returns bits parser') ->
  tags parser' = tags parser.
Proof. intros Hkeep. by apply verbatim_loop_registry. Qed.

(** *** Where an exception comes from *)

Lemma loop_body_Abort (endtagname : string) (parser : Parser) (l : Locals)
    (e : exn) :
  (forall p t, empty_block_tag engine p t <> None) ->
  (forall p t c, invalid_block_tag engine p t c <> None) ->
  (forall p t e', compile_function_error engine p t e' = false) ->
  loop_body engine endtagname parser l = Abort e ->
  (e = IndexError /\ tokens parser = [])
  \/ (exists p t, empty_block_tag engine p t = Some e)
  \/ (exists p t c, invalid_block_tag engine p t c = Some e)
  \/ (exists f p t p', call engine f p t = CompileRaised e p').
Proof.
  intros Hempty Hinvalid Hrecover. unfold loop_body.
  destruct (tokens parser) as [|token rest]; [intros [= <-]; by left |].
  destruct (decide (contents token = endtagname)); [done |].
  destruct (token_type token); try done.
  unfold block_branch, bind_command, bind_compile_func, bind_node,
    append_node.
  destruct (PyStr.split (contents token)) as [|cmd words].
  { destruct (empty_block_tag engine _ token) as [e' |] eqn:Hhook.
    - cbn. intros [= <-]. right. left. eauto.
    - by apply Hempty in Hhook. }
  cbn. destruct (tags parser !! cmd) as [f |].
  2:{ destruct (invalid_block_tag engine _ token cmd) as [e' |] eqn:Hhook.
      - cbn. intros [= <-]. right. right. left. eauto.
      - by apply Hinvalid in Hhook. }
  cbn. destruct (call engine f _ token) as [nd p1 | e' p1] eqn:Hcall;
    [done |].
  destruct e'; cbn; rewrite ?Hrecover; cbn; intros [= <-];
    right; right; right; eauto.
Qed.

(** With a parser whose empty-block and invalid-block hooks always raise
    and whose error-recovery hook never declares an error handled, every
    exception that leaves [verbatim_tags] is [IndexError] for a stream that
    ran out, or was raised by one of the two hooks, or was raised by a
    sub-tag's compile function: the locals [command], [compile_func] and
    [node] are never read before they are bound. *)
Theorem verbatim_tags_error_origin (fuel : nat) (parser : Parser)
    (endtagname : string) (e : exn) :
  (forall p t, empty_block_tag engine p t <> None) ->
  (forall p t c, invalid_block_tag engine p t c <> None) ->
  (forall p t e', compile_function_error engine p t e' = false) ->
  verbatim_tags engine fuel parser endtagname = Some (Raises e) ->
  e = IndexError
  \/ (exists p t, empty_block_tag engine p t = Some e)
  \/ (exists p t c, invalid_block_tag engine p t c = Some e)
  \/ (exists f p t p', call engine f p t = CompileRaised e p').
Proof.
  intros Hempty Hinvalid Hrecover. unfold verbatim_tags.
  generalize (@no_locals tag Node). revert parser.
  induction fuel as [|fuel IH]; intros parser l; cbn [verbatim_loop];
    [done |].
  destruct (loop_body engine endtagname parser l) as [p1 l1 | p1 l1 | e']
    eqn:Hbody; [apply IH | done |].
  intros [= ->].
  apply loop_body_Abort in Hbody as [[-> _] | H]; auto.
Qed.

(** *** Fragments are only added *)

Lemma loop_body_Continue_bits (endtagname : string)
    (parser parser' : Parser) (l l' : Locals) :
  loop_body engine endtagname parser l = Continue parser' l' ->
  exists added, text_and_nodes l' = text_and_nodes l ++ added.
Proof.
  unfold loop_body. destruct (tokens parser) as [|token rest]; [done |].
  destruct (decide (contents token = endtagname)); [done |].
  destruct (token_type token).
  - intros [= _ <-]. by eexists.
  - intros [= _ <-]. cbn. rewrite <- !app_assoc. by eexists.
  - unfold block_branch, bind_command, bind_compile_func, bind_node,
      append_node.
    intros H. cbn in H.
    repeat (case_match; simplify_eq/=); by eexists.
  - intros [= _ <-]. exists []. by rewrite app_nil_r.
Qed.

Lemma verbatim_loop_extends (fuel : nat) (endtagname : string)
    (parser parser' : Parser) (l : Locals) (bits : list Fragment) :
  verbatim_loop engine fuel endtagname parser l
  = Some (Returns bits parser') ->
  exists added, bits = text_and_nodes l ++ added.
Proof.
  revert parser l.
  induction fuel as [|fuel IH]; intros parser l; cbn [verbatim_loop];
    [done |].
  destruct (loop_body engine endtagname parser l) as [p1 l1 | p1 l1 | e]
    eqn:Hbody; [| | done].
  - intros [added ->]%IH.
    apply loop_body_Continue_bits in Hbody as [added' ->].
    rewrite <- app_assoc. by eexists.
  - intros [= <- <-].
    apply (loop_body_Break engine) in Hbody as (_ & _ & _ & _ & ->).
    exists []. by rewrite app_nil_r.
Qed.

Lemma verbatim_loop_after (n fuel : nat) (endtagname : string)
    (parser p : Parser) (l0 l : Locals) (out : outcome tag Node) :
  iterations engine n endtagname parser l0 = Some (p, l) ->
  verbatim_loop engine fuel endtagname parser l0 = Some out ->
  exists fuel', verbatim_loop engine fuel' endtagname p l = Some out.
Proof.
  revert fuel parser l0. induction n as [|n IH]; intros fuel parser l0.
  - cbn. intros [= -> ->] Hout. by exists fuel.
  - cbn [iterations].
    destruct (loop_body engine endtagname parser l0) as [p1 l1 | |]
      eqn:Hbody; try done.
    intros Hn. destruct fuel as [|fuel]; [done |].
    cbn [verbatim_loop]. rewrite Hbody. by apply IH.
Qed.

(** What the extractor has collected is never taken back or rewritten: the
    fragments held after any number of iterations are the first fragments
    of the list the call returns. *)
Theorem verbatim_tags_append_only (n fuel : nat) (endtagname : string)
    (parser p parser' : Parser) (l : Locals) (bits : list Fragment) :
  iterations engine n endtagname parser no_locals = Some (p, l) ->
  verbatim_tags engine fuel parser endtagname
  = Some (Returns bits parser') ->
  exists added, bits = text_and_nodes l ++ added.
Proof.
  intros Hn Hout.
  destruct (verbatim_loop_after _ _ _ _ _ _ _ _ Hn Hout) as [fuel' Hout'].
  by eapply verbatim_loop_extends.
Qed.

End ExtractorExtras.

(** *** Instances *)

Lemma simple_engine_registry (handled : bool) :
  registry_preserving (simple_engine handled).
Proof. intros f parser token. by destruct f. Qed.

Lemma verbatim_tags_literal_witness :
  verbatim_tags (simple_engine false) 4
    (mkParser
       ([mkToken TOKEN_TEXT "a"; mkToken TOKEN_COMMENT "note";
         mkToken TOKEN_VAR "x"]
        ++ mkToken TOKEN_BLOCK "endverbatim" :: [mkToken TOKEN_TEXT "z"])
       simple_tags)
    "endverbatim"
  = Some (Returns
            (flat_map literal_bits
               [mkToken TOKEN_TEXT "a"; mkToken TOKEN_COMMENT "note";
                mkToken TOKEN_VAR "x"])
            (mkParser [mkToken TOKEN_TEXT "z"] simple_tags))
  /\ render (simple_engine false)
       (flat_map literal_bits
          [mkToken TOKEN_TEXT "a"; mkToken TOKEN_COMMENT "note";
           mkToken TOKEN_VAR "x"])
       tt
     = String.concat EmptyString
         (map literal_source
            [mkToken TOKEN_TEXT "a"; mkToken TOKEN_COMMENT "note";
             mkToken TOKEN_VAR "x"]).
Proof.
  apply (verbatim_tags_literal (simple_engine false) "endverbatim"
           [mkToken TOKEN_TEXT "a"; mkToken TOKEN_COMMENT "note";
            mkToken TOKEN_VAR "x"]
           (mkToken TOKEN_BLOCK "endverbatim") [mkToken TOKEN_TEXT "z"]
           simple_tags 4 tt).
  - repeat constructor; discriminate.
  - repeat constructor; discriminate.
  - reflexivity.
  - simpl. lia.
Defined.


Lemma verbatim_tags_no_end_marker_witness :
  exists e,
    verbatim_tags (simple_engine false) 3
      (mkParser
         [mkToken TOKEN_BLOCK "csrf_token"; mkToken TOKEN_BLOCK "broken"]
         simple_tags)
      "endverbatim"
    = Some (Raises e).
Proof.
  apply (verbatim_tags_no_end_marker (simple_engine false) "endverbatim"
           (mkParser
              [mkToken TOKEN_BLOCK "csrf_token"; mkToken TOKEN_BLOCK "broken"]
              simple_tags)
           3).
  - apply simple_engine_front.
  - repeat constructor; discriminate.
  - simpl. lia.
Defined.


Lemma verbatim_tags_registry_witness :
  tags (mkParser [mkToken TOKEN_TEXT "z"] simple_tags)
  = tags
      (mkParser
         [mkToken TOKEN_BLOCK "csrf_token"; mkToken TOKEN_BLOCK "endverbatim";
          mkToken TOKEN_TEXT "z"]
         simple_tags).
Proof.
  apply (verbatim_tags_registry (simple_engine false) 2
           (mkParser
              [mkToken TOKEN_BLOCK "csrf_token";
               mkToken TOKEN_BLOCK "endverbatim"; mkToken TOKEN_TEXT "z"]
              simple_tags)
           (mkParser [mkToken TOKEN_TEXT "z"] simple_tags)
           "endverbatim" [NodeBit "<input>"]).
  - apply simple_engine_registry.
  - vm_compute; reflexivity.
Defined.

Lemma verbatim_tags_error_origin_witness :
  UnknownTag "nope" = IndexError
  \/ (exists p t,
        empty_block_tag (simple_engine false) p t = Some (UnknownTag "nope"))
  \/ (exists p t c,
        invalid_block_tag (simple_engine false) p t c
        = Some (UnknownTag "nope"))
  \/ (exists f p t p',
        call (simple_engine false) f p t
        = CompileRaised (UnknownTag "nope") p').
Proof.
  apply (verbatim_tags_error_origin (simple_engine false) 2
           (mkParser
              [mkToken TOKEN_TEXT "a"; mkToken TOKEN_BLOCK "nope"]
              simple_tags)
           "endverbatim" (UnknownTag "nope")).
  - intros p t. discriminate.
  - intros p t c. discriminate.
  - intros p t e'. reflexivity.
  - vm_compute; reflexivity.
Defined.

Lemma verbatim_tags_append_only_witness :
  exists added,
    [Text "a"; NodeBit "<input>"; Text "b"]
    = text_and_nodes
        (mkLocals [Text "a"; NodeBit "<input>"] (Some "csrf_token")
           (Some (Emits "<input>")) (Some "<input>"))
      ++ added.
Proof.
  apply (verbatim_tags_append_only (simple_engine false) 2 4 "endverbatim"
           (mkParser
              [mkToken TOKEN_TEXT "a"; mkToken TOKEN_BLOCK "csrf_token";
               mkToken TOKEN_TEXT "b"; mkToken TOKEN_BLOCK "endverbatim"]
              simple_tags)
           (mkParser
              [mkToken TOKEN_TEXT "b"; mkToken TOKEN_BLOCK "endverbatim"]
              simple_tags)
           (mkParser [] simple_tags)).
  - vm_compute; reflexivity.
  - vm_compute; reflexivity.
Defined.
